(** * Verification of the analysis core of [plot/plot.py]

  The script post-processes lattice Monte-Carlo output.  This development
  embeds the parts that carry logic:

  - [append_observable]: sanitisation of a bootstrap mean / variance pair;
  - [info_plot]: the loop that reads the run files into parallel lists, the
    aggregation loop that assembles the fit vectors, and the fit stage;
  - [magnetization_exact], [ene_exact], [specific_heat_exact]: the closed
    forms of the two-dimensional Ising model.

  Measured quantities are IEEE binary64 numbers and are modelled by Rocq's
  primitive floats, so that infinities and NaN behave as in numpy.  The
  closed forms use [sinh], [cosh], [tanh], a real power and the complete
  elliptic integrals, none of which primitive floats provide; they are
  modelled over the real numbers, without a value where the float code
  returns NaN or an infinity. *)

From Stdlib Require Import ZArith Lia Floats QArith Qreals Reals Lra Factorial.
From stdpp Require Import base option list strings gmap pretty.

Set Warnings "-inexact-float".

(** ** Python values and exceptions *)

Module Py.

(** The exceptions the embedded code can raise. *)
Inductive exn : Type :=
| KeyError (key : string)
| AttributeError
| IndexError
| SolverError (msg : string).

(** Result of a call: a value, or an exception that unwinds the caller. *)
Inductive outcome (A : Type) : Type :=
| Ret (a : A)
| Raise (e : exn).
Arguments Ret {A} a.
Arguments Raise {A} e.

#[global] Instance outcome_ret : MRet outcome := fun A a => Ret a.
#[global] Instance outcome_bind : MBind outcome :=
  fun A B f m => match m with Ret a => f a | Raise e => Raise e end.

(** A list element that is either a Python [int] or a numpy [float64]. *)
Inductive num : Type :=
| PyInt (z : Z)
| PyFloat (x : float).

(** [d[key]] on an attribute dictionary. *)
Definition getitem {V} (d : gmap string V) (key : string) : outcome V :=
  match d !! key with
  | Some v => Ret v
  | None => Raise (KeyError key)
  end.

(** [l[i]] for an index that is not negative. *)
Definition index {V} (l : list V) (i : nat) : outcome V :=
  match l !! i with
  | Some v => Ret v
  | None => Raise IndexError
  end.

(** [str(i)] for an integer, as an f-string formats it. *)
Definition str (i : Z) : string := pretty i.

(** [range(start, stop, step)] for a positive step. *)
Definition range (start stop step : Z) : list Z :=
  (fun k : nat => (start + Z.of_nat k * step)%Z)
    <$> seq 0 (Z.to_nat ((stop - start + step - 1) / step)).

(** Conversion of a machine integer to [float64]. *)
Definition to_float (z : Z) : float :=
  if (z <? 0)%Z then (- PrimFloat.of_uint63 (Uint63.of_Z (- z)))%float
  else PrimFloat.of_uint63 (Uint63.of_Z z).

(** [l[-1]]. *)
Definition last_item {V} (l : list V) : outcome V :=
  match last l with
  | Some v => Ret v
  | None => Raise IndexError
  end.

End Py.
Import Py.

(** ** Observable sanitisation: [append_observable] *)

Module Sanitize.

(** The attributes of one observable group, keyed by attribute name. *)
Abbreviation attrs := (gmap string float).

(** [append_observable(name, measurements_group_, observable_list,
    observable_error_list)].  The two lists are the caller's; the function
    returns them as it leaves them, together with its outcome. *)
Definition append_observable (name : string)
    (measurements_group_ : gmap string attrs)
    (observable_list observable_error_list : list num)
  : outcome unit * (list num * list num) :=
  match measurements_group_ !! name with
  | None => (Raise AttributeError, (observable_list, observable_error_list))
  | Some observable_group =>
    let mean :=
      match observable_group !! "bootstrap_mean_10000_100000" with
      | Some temp => Ret temp
      | None => getitem observable_group "bootstrap_mean"
      end in
    match mean with
    | Raise e => (Raise e, (observable_list, observable_error_list))
    | Ret temp =>
      let observable_list :=
        if is_infinity temp || (1e200 <? temp)%float
        then observable_list ++ [PyInt (-42)]
        else observable_list ++ [PyFloat temp] in
      let variance :=
        match observable_group !! "bootstrap_variance_10000_100000" with
        | Some temp => Ret temp
        | None => getitem observable_group "bootstrap_variance"
        end in
      match variance with
      | Raise e => (Raise e, (observable_list, observable_error_list))
      | Ret temp =>
        let observable_error_list :=
          if is_infinity temp || (1e200 <? temp)%float || is_nan temp
          then observable_error_list ++ [PyInt 42]
          else observable_error_list ++ [PyFloat (PrimFloat.sqrt temp)] in
        (Ret tt, (observable_list, observable_error_list))
      end
    end
  end.

(** The sanitisation rule in the words of the specification: the mean is
    kept unless it is infinite or larger than 1e200 in absolute value. *)
Definition spec_sanitized_value (mean : float) : num :=
  if is_infinity mean || (1e200 <? abs mean)%float
  then PyInt (-42) else PyFloat mean.

Definition spec_sanitized_error (variance : float) : num :=
  if is_infinity variance || is_nan variance || (1e200 <? variance)%float
  then PyInt 42 else PyFloat (PrimFloat.sqrt variance).

(** A group that holds only the two unsuffixed bootstrap attributes. *)
Definition plain_group (mean variance : float) : attrs :=
  <["bootstrap_mean" := mean]> (<["bootstrap_variance" := variance]> ∅).

(** The estimate [append_observable] reads for [base]: the checkpoint
    [_10000_100000] when the group has it, the unsuffixed attribute
    otherwise (lines 55-59 and 65-69). *)
Definition bootstrap_estimate (base : string) (g : attrs) : option float :=
  match g !! (base +:+ "_10000_100000") with
  | Some temp => Some temp
  | None => g !! base
  end.

(** A mean far below [-1e200] passes through: the code compares the mean
    itself with [1e200], not its absolute value. *)
Definition large_negative_group : attrs := plain_group (-1e201) 0.04.

End Sanitize.

(** ** The scaling-fit pipeline: [info_plot] *)

Module InfoPlot.
Import Sanitize.

(** The suffix of a checkpoint that covers samples [i] to [100000]. *)
Definition sufix (i : Z) : string := "_" +:+ str i +:+ "_" +:+ str 100000.

(** The checkpoints a run can declare: [range(1000, 100001, 1000)]. *)
Definition checkpoints : list Z := range 1000 100001 1000.

(** The estimate the specification asks for: the checkpoint with the
    largest sample range (the smallest first sample) when one is recorded
    under [base], the unsuffixed attribute otherwise. *)
Definition spec_final_estimate (base : string) (a : attrs) : option float :=
  match list_find (fun i => is_Some (a !! (base +:+ sufix i))) checkpoints with
  | Some (_, i) => a !! (base +:+ sufix i)
  | None => a !! base
  end.


(** The attributes [nu_pre] and [nu_post] of the group [level1]. *)
Record level1_group : Type := Level1 {
  l1_nu_pre : Z;
  l1_nu_post : Z
}.

(** The typed view of one result file [out_*.h5]: the attributes of
    [level0], the length of its dataset [h], its measurement groups, and the
    group [level1] when the file has one. *)
Record h5file : Type := H5File {
  attr_gamma : Z;
  attr_tick_time : float;
  attr_inter_type : Z;
  attr_nu_pre : Z;
  attr_nu_post : Z;
  len_h : Z;
  measurements : gmap string attrs;
  level1 : option level1_group
}.

(** The lists [info_plot] fills in its first loop, one entry per file that
    holds the observable, and the labels of the curves it adds to the
    autocorrelation axes. *)
Record run_lists : Type := RunLists {
  int_auto_correlation_time : list float;
  int_auto_correlation_time_bias : list float;
  int_auto_correlation_time_stat_error : list float;
  gamma : list Z;
  system_size : list Z;
  tick_time : list float;
  interpolation_type : list Z;
  nu_pre_level0 : list Z;
  nu_post_level0 : list Z;
  nu_pre_level1 : list Z;
  nu_post_level1 : list Z;
  ax_correl : list string
}.

Definition no_runs : run_lists :=
  RunLists [] [] [] [] [] [] [] [] [] [] [] [].

(** The loop over [range(1000, 100001, 1000)] (lines 246-254): the first
    suffix found stays in [last_sufix]; each suffix found also reads its
    statistical error for the per-file plot. *)
Fixpoint scan_sufix (observable_group : attrs) (todo : list Z)
    (last_sufix : string) : outcome string :=
  match todo with
  | [] => Ret last_sufix
  | i :: todo =>
    match observable_group !! ("int_auto_correlation_time" +:+ sufix i) with
    | Some _ =>
      _ ← getitem observable_group
            ("int_auto_correlation_time_stat_error" +:+ sufix i);
      scan_sufix observable_group todo
        (if Nat.eqb (String.length last_sufix) 0 then sufix i else last_sufix)
    | None => scan_sufix observable_group todo last_sufix
    end
  end.

(** Lines 272-286: the label of a run and its entries of [nu_pre_level1] and
    [nu_post_level1].  [gamma] is the list after this run's entry was
    appended. *)
Definition level_branch (f : h5file) (gamma : list Z)
  : outcome (string * Z * Z) :=
  match level1 f with
  | Some level1_group =>
    g ← last_item gamma;
    let label := if (1 <? g)%Z then "MLHMC  W-cycle" else "MLHMC V-cycle" in
    Ret (label, l1_nu_pre level1_group, l1_nu_post level1_group)
  | None => Ret ("HMC", (-1)%Z, (-1)%Z)
  end.

(** The body of the first loop (lines 234-303) for one file.  The per-file
    figure, its title and the dataset read behind the autocorrelation curve
    belong to the rendering side and are left out. *)
Definition read_file (observable_name : string) (f : h5file) (r : run_lists)
  : outcome run_lists :=
  match measurements f !! observable_name with
  | None => Ret r
  | Some observable_group =>
    last_sufix ← scan_sufix observable_group checkpoints "";
    tau ← getitem observable_group ("int_auto_correlation_time" +:+ last_sufix);
    bias ← getitem observable_group
             ("int_auto_correlation_time_bias" +:+ last_sufix);
    err ← getitem observable_group
            ("int_auto_correlation_time_stat_error" +:+ last_sufix);
    let gamma := gamma r ++ [attr_gamma f] in
    let system_size := system_size r ++ [len_h f] in
    '(label, nu_pre1, nu_post1) ← level_branch f gamma;
    size ← last_item system_size;
    Ret {| int_auto_correlation_time := int_auto_correlation_time r ++ [tau];
           int_auto_correlation_time_bias :=
             int_auto_correlation_time_bias r ++ [bias];
           int_auto_correlation_time_stat_error :=
             int_auto_correlation_time_stat_error r ++ [err];
           gamma := gamma;
           system_size := system_size;
           tick_time := tick_time r ++ [attr_tick_time f];
           interpolation_type := interpolation_type r ++ [attr_inter_type f];
           nu_pre_level0 := nu_pre_level0 r ++ [attr_nu_pre f];
           nu_post_level0 := nu_post_level0 r ++ [attr_nu_post f];
           nu_pre_level1 := nu_pre_level1 r ++ [nu_pre1];
           nu_post_level1 := nu_post_level1 r ++ [nu_post1];
           ax_correl :=
             if (size =? 32 * 32)%Z then ax_correl r ++ [label]
             else ax_correl r |}
  end.

(** The first loop: [for file in file_list]. *)
Fixpoint read_files (observable_name : string) (file_list : list h5file)
    (r : run_lists) : outcome run_lists :=
  match file_list with
  | [] => Ret r
  | f :: file_list =>
    r ← read_file observable_name f r;
    read_files observable_name file_list r
  end.

(** The vectors the aggregation loop assembles for the four fits. *)
Record fit_vectors : Type := FitVectors {
  x_wo_bias_correction_hmc : list float;
  y_wo_bias_correction_hmc : list float;
  yerr_wo_bias_correction_hmc : list float;
  x_wo_bias_correction_multi_hmc : list float;
  y_wo_bias_correction_multi_hmc : list float;
  yerr_wo_bias_correction_multi_hmc : list float;
  y_w_bias_correction_hmc : list float;
  y_w_bias_correction_multi_hmc : list float
}.

Definition no_points : fit_vectors := FitVectors [] [] [] [] [] [] [] [].

(** [np.sqrt(system_size[i])] on an integer array entry. *)
Definition np_sqrt_int (n : Z) : float := PrimFloat.sqrt (to_float n).

(** Appending one run to the single-level vectors (lines 357-360). *)
Definition push_hmc (x y yw yerr : float) (v : fit_vectors) : fit_vectors :=
  {| x_wo_bias_correction_hmc := x_wo_bias_correction_hmc v ++ [x];
     y_wo_bias_correction_hmc := y_wo_bias_correction_hmc v ++ [y];
     yerr_wo_bias_correction_hmc := yerr_wo_bias_correction_hmc v ++ [yerr];
     x_wo_bias_correction_multi_hmc := x_wo_bias_correction_multi_hmc v;
     y_wo_bias_correction_multi_hmc := y_wo_bias_correction_multi_hmc v;
     yerr_wo_bias_correction_multi_hmc := yerr_wo_bias_correction_multi_hmc v;
     y_w_bias_correction_hmc := y_w_bias_correction_hmc v ++ [yw];
     y_w_bias_correction_multi_hmc := y_w_bias_correction_multi_hmc v |}.

(** Appending one run to the multilevel vectors (lines 362-366, 382-385). *)
Definition push_multi_hmc (x y yw yerr : float) (v : fit_vectors)
  : fit_vectors :=
  {| x_wo_bias_correction_hmc := x_wo_bias_correction_hmc v;
     y_wo_bias_correction_hmc := y_wo_bias_correction_hmc v;
     yerr_wo_bias_correction_hmc := yerr_wo_bias_correction_hmc v;
     x_wo_bias_correction_multi_hmc := x_wo_bias_correction_multi_hmc v ++ [x];
     y_wo_bias_correction_multi_hmc := y_wo_bias_correction_multi_hmc v ++ [y];
     yerr_wo_bias_correction_multi_hmc :=
       yerr_wo_bias_correction_multi_hmc v ++ [yerr];
     y_w_bias_correction_hmc := y_w_bias_correction_hmc v;
     y_w_bias_correction_multi_hmc := y_w_bias_correction_multi_hmc v ++ [yw] |}.

(** The body of the aggregation loop (lines 343-386) at index [i]; the
    drawing calls read the same entries and are left out. *)
Definition aggregate_step (r : run_lists) (i : nat) (nu_pre : Z)
    (v : fit_vectors) : outcome fit_vectors :=
  size ← index (system_size r) i;
  tau ← index (int_auto_correlation_time r) i;
  err ← index (int_auto_correlation_time_stat_error r) i;
  bias ← index (int_auto_correlation_time_bias r) i;
  if (nu_pre =? -1)%Z then
    if (size <? 33 * 33)%Z then
      let v := push_hmc (np_sqrt_int size) tau (tau + bias)%float err v in
      if (size <? 5 * 5)%Z then
        Ret (push_multi_hmc (np_sqrt_int size) tau (tau + bias)%float err v)
      else Ret v
    else Ret v
  else
    if (size <? 33 * 33)%Z then
      Ret (push_multi_hmc (np_sqrt_int size) tau (tau + bias)%float err v)
    else Ret v.

(** [for i, nu_pre in enumerate(nu_pre_level1)], from index [i] on. *)
Fixpoint aggregate_from (r : run_lists) (i : nat) (todo : list Z)
    (v : fit_vectors) : outcome fit_vectors :=
  match todo with
  | [] => Ret v
  | nu_pre :: todo =>
    v ← aggregate_step r i nu_pre v;
    aggregate_from r (S i) todo v
  end.

Definition aggregate (r : run_lists) : outcome fit_vectors :=
  aggregate_from r 0 (nu_pre_level1 r) no_points.

(** The two loops of [info_plot] up to the fits. *)
Definition fit_input (observable_name : string) (file_list : list h5file)
  : outcome fit_vectors :=
  r ← read_files observable_name file_list no_runs;
  aggregate r.

(** *** The runs as rows *)

(** What the aggregation loop reads of one run: its entries of
    [nu_pre_level1], [system_size] and of the three lists of the
    autocorrelation time. *)
Record row : Type := Row {
  row_nu_pre : Z;
  row_size : Z;
  row_tau : float;
  row_bias : float;
  row_err : float
}.

(** The lists [r] hold the runs [ws], entry by entry. *)
Definition stores (r : run_lists) (ws : list row) : Prop :=
  nu_pre_level1 r = row_nu_pre <$> ws
  /\ system_size r = row_size <$> ws
  /\ int_auto_correlation_time r = row_tau <$> ws
  /\ int_auto_correlation_time_bias r = row_bias <$> ws
  /\ int_auto_correlation_time_stat_error r = row_err <$> ws.

(** The run of the file [f] for the observable [name]: the estimates are
    read under the suffix the scan returns. *)
Definition reads (name : string) (f : h5file) (w : row) : Prop :=
  exists (g : attrs) (s : string),
    measurements f !! name = Some g
    /\ scan_sufix g checkpoints "" = Ret s
    /\ g !! ("int_auto_correlation_time" +:+ s) = Some (row_tau w)
    /\ g !! ("int_auto_correlation_time_bias" +:+ s) = Some (row_bias w)
    /\ g !! ("int_auto_correlation_time_stat_error" +:+ s) = Some (row_err w)
    /\ row_size w = len_h f
    /\ row_nu_pre w = match level1 f with
                      | Some l => l1_nu_pre l
                      | None => (-1)%Z
                      end.

(** The files that hold the observable. *)
Definition runs_of (name : string) (file_list : list h5file) : list h5file :=
  filter (fun f => is_Some (measurements f !! name)) file_list.

(** The runs that enter the single-level fit and the multilevel fit. *)
Definition in_hmc_fit (w : row) : Prop :=
  row_nu_pre w = (-1)%Z /\ (row_size w < 33 * 33)%Z.

Definition in_multi_fit (w : row) : Prop :=
  (row_nu_pre w = (-1)%Z /\ (row_size w < 5 * 5)%Z)
  \/ (row_nu_pre w <> (-1)%Z /\ (row_size w < 33 * 33)%Z).

#[global] Instance in_hmc_fit_dec (w : row) : Decision (in_hmc_fit w).
Proof. unfold in_hmc_fit. apply _. Defined.

#[global] Instance in_multi_fit_dec (w : row) : Decision (in_multi_fit w).
Proof. unfold in_multi_fit. apply _. Defined.

(** The point of a run: [(x, y, yerr)], and [y] with the bias added. *)
Definition point_x (w : row) : float := np_sqrt_int (row_size w).
Definition point_y_w_bias (w : row) : float := (row_tau w + row_bias w)%float.
Definition point (w : row) : float * (float * float) :=
  (point_x w, (row_tau w, row_err w)).

(** The fit vectors in closed form: the points of the runs selected for
    each fit, in the order of the runs. *)
Definition collect (ws : list row) : fit_vectors :=
  {| x_wo_bias_correction_hmc := point_x <$> filter in_hmc_fit ws;
     y_wo_bias_correction_hmc := row_tau <$> filter in_hmc_fit ws;
     yerr_wo_bias_correction_hmc := row_err <$> filter in_hmc_fit ws;
     x_wo_bias_correction_multi_hmc := point_x <$> filter in_multi_fit ws;
     y_wo_bias_correction_multi_hmc := row_tau <$> filter in_multi_fit ws;
     yerr_wo_bias_correction_multi_hmc := row_err <$> filter in_multi_fit ws;
     y_w_bias_correction_hmc := point_y_w_bias <$> filter in_hmc_fit ws;
     y_w_bias_correction_multi_hmc :=
       point_y_w_bias <$> filter in_multi_fit ws |}.

(** The points handed to the single-level and to the multilevel fit. *)
Definition points_hmc (v : fit_vectors) : list (float * (float * float)) :=
  zip (x_wo_bias_correction_hmc v)
      (zip (y_wo_bias_correction_hmc v) (yerr_wo_bias_correction_hmc v)).

Definition points_multi_hmc (v : fit_vectors)
  : list (float * (float * float)) :=
  zip (x_wo_bias_correction_multi_hmc v)
      (zip (y_wo_bias_correction_multi_hmc v)
           (yerr_wo_bias_correction_multi_hmc v)).


(** *** The fit stage (lines 388-432) *)

(** One line of the report file [<observable>_output.txt]. *)
Record report_line : Type := ReportLine {
  rl_class : string;
  rl_observable : string;
  rl_a : float;
  rl_a_err : float;
  rl_z : float;
  rl_z_err : float;
  rl_chi2 : float
}.

(** The covariance matrix [pcov], by rows. *)
Abbreviation covariance := ((float * float) * (float * float))%type.

Section FitStage.

(** [opt.curve_fit(fit_function, x, y, sigma=yerr)] is the solver of scipy:
    it returns the coefficients [popt = (a, z)] and [pcov], or raises.  The
    power [x ** z] of numpy and [ndarray.sum()] are library code as well.
    The stage is stated for every behaviour of the three. *)
Variable curve_fit :
  list float -> list float -> list float -> outcome (float * float * covariance).
Variable np_power : float -> float -> float.
Variable np_sum : list float -> float.

(** [fit_function(x, a, z)]. *)
Definition fit_function (x a z : float) : float := (a * np_power x z)%float.

(** [(((y - fit_function(x, *popt)) / yerr) ** 2)], entry by entry. *)
Definition weighted_squares (x y yerr : list float) (popt : float * float)
  : list float :=
  zip_with (fun xy e =>
              let r := ((xy.2 - fit_function xy.1 popt.1 popt.2) / e)%float in
              (r * r)%float)
           (zip x y) yerr.

(** [chi2] of lines 394-396 and 410-412; [len(popt)] is 2. *)
Definition chi2 (x y yerr : list float) (popt : float * float) : float :=
  (np_sum (weighted_squares x y yerr popt)
   / to_float (Z.of_nat (length x) - 2))%float.

Definition report (class observable_name : string) (x y yerr : list float)
    (fit : float * float * covariance) : report_line :=
  let '(popt, pcov) := fit in
  {| rl_class := class;
     rl_observable := observable_name;
     rl_a := popt.1;
     rl_a_err := PrimFloat.sqrt pcov.1.1;
     rl_z := popt.2;
     rl_z_err := PrimFloat.sqrt pcov.2.2;
     rl_chi2 := chi2 x y yerr popt |}.

(** The four fits in the order of the code.  The result is the lines printed
    to the report file so far and the outcome of the stage: an exception of
    the solver is not caught and ends [info_plot]. *)
Definition fit_stage (observable_name : string) (v : fit_vectors)
  : list report_line * outcome unit :=
  let x_hmc := x_wo_bias_correction_hmc v in
  let yerr_hmc := yerr_wo_bias_correction_hmc v in
  let x_multi := x_wo_bias_correction_multi_hmc v in
  let yerr_multi := yerr_wo_bias_correction_multi_hmc v in
  match curve_fit x_hmc (y_wo_bias_correction_hmc v) yerr_hmc with
  | Raise e => ([], Raise e)
  | Ret fit =>
    let hmc_line :=
      report "HMC" observable_name x_hmc (y_wo_bias_correction_hmc v)
             yerr_hmc fit in
    match curve_fit x_multi (y_wo_bias_correction_multi_hmc v) yerr_multi with
    | Raise e => ([hmc_line], Raise e)
    | Ret fit =>
      let mlhmc_line :=
        report "MLHMC" observable_name x_multi
               (y_wo_bias_correction_multi_hmc v) yerr_multi fit in
      match curve_fit x_hmc (y_w_bias_correction_hmc v) yerr_hmc with
      | Raise e => ([hmc_line; mlhmc_line], Raise e)
      | Ret _ =>
        match curve_fit x_multi (y_w_bias_correction_multi_hmc v) yerr_multi with
        | Raise e => ([hmc_line; mlhmc_line], Raise e)
        | Ret _ => ([hmc_line; mlhmc_line], Ret tt)
        end
      end
    end
  end.

(** [info_plot(sub_folder_name, observable_name)] on the files of the
    folder. *)
Definition info_plot (observable_name : string) (file_list : list h5file)
  : list report_line * outcome unit :=
  match fit_input observable_name file_list with
  | Raise e => ([], Raise e)
  | Ret v => fit_stage observable_name v
  end.

(** A fit is degenerate when it has fewer than three points or a point with
    a zero error bar. *)
Definition degenerate (x yerr : list float) : Prop :=
  (length x < 3)%nat \/ Exists (fun e => (e =? 0)%float = true) yerr.

(** What the specification asks of a degenerate fit: the run goes on to its
    end and the report holds no coefficients for that fit. *)
Definition reported_fit_error (class : string)
    (res : list report_line * outcome unit) : Prop :=
  res.2 = Ret tt /\ Forall (fun l => rl_class l <> class) res.1.

End FitStage.

(** *** Example data and relations used by the statements *)

(** An observable with three bootstrap means: the checkpoints
    [_1000_100000] and [_10000_100000], and the unsuffixed one. *)
Definition two_checkpoints_group : attrs :=
  <["bootstrap_mean_1000_100000" := 1%float]>
    (<["bootstrap_mean_10000_100000" := 2%float]>
       (<["bootstrap_mean" := 3%float]>
          (<["bootstrap_variance" := 0.04%float]> ∅))).

(** An autocorrelation time recorded under the checkpoints [_2000_100000]
    and [_5000_100000], each with its statistical error, and unsuffixed. *)
Definition two_tau_checkpoints_group : attrs :=
  <["int_auto_correlation_time_2000_100000" := 2%float]>
    (<["int_auto_correlation_time_stat_error_2000_100000" := 0.5%float]>
       (<["int_auto_correlation_time_5000_100000" := 5%float]>
          (<["int_auto_correlation_time_stat_error_5000_100000" := 0.5%float]>
             (<["int_auto_correlation_time" := 9%float]> ∅)))).



(** The attributes of an observable with unsuffixed estimates only. *)
Definition tau_group (tau bias err : float) : attrs :=
  <["int_auto_correlation_time" := tau]>
    (<["int_auto_correlation_time_bias" := bias]>
       (<["int_auto_correlation_time_stat_error" := err]> ∅)).

(** A multilevel run on a 16 x 16 grid, V-cycle. *)
Definition mlhmc_16x16 : h5file :=
  {| attr_gamma := 1; attr_tick_time := 0.5; attr_inter_type := 0;
     attr_nu_pre := 1; attr_nu_post := 1; len_h := 16 * 16;
     measurements := {["magnetization" := tau_group 3 0.5 0.25]};
     level1 := Some (Level1 2 2) |}.

(** A single-level run on a 4 x 4 grid. *)
Definition hmc_4x4 : h5file :=
  {| attr_gamma := 1; attr_tick_time := 0.5; attr_inter_type := 0;
     attr_nu_pre := 1; attr_nu_post := 1; len_h := 4 * 4;
     measurements := {["magnetization" := tau_group 7 0.5 0.25]};
     level1 := None |}.


(** Fit vectors with two points per fit, one of them with a zero error
    bar. *)
Definition two_point_vectors : fit_vectors :=
  {| x_wo_bias_correction_hmc := [2; 3]%float;
     y_wo_bias_correction_hmc := [4; 9]%float;
     yerr_wo_bias_correction_hmc := [0.5; 0]%float;
     x_wo_bias_correction_multi_hmc := [2; 3]%float;
     y_wo_bias_correction_multi_hmc := [4; 9]%float;
     yerr_wo_bias_correction_multi_hmc := [0.5; 0]%float;
     y_w_bias_correction_hmc := [4; 9]%float;
     y_w_bias_correction_multi_hmc := [4; 9]%float |}.

(** A solver that returns coefficients whatever it is given, and one that
    raises whatever it is given. *)
Definition returning_solver (x y yerr : list float)
  : outcome (float * float * covariance) :=
  Ret ((1, 1), ((0, 0), (0, 0)))%float.

Definition raising_solver (x y yerr : list float)
  : outcome (float * float * covariance) :=
  Raise (SolverError "singular").

End InfoPlot.

(** ** The closed forms of the Ising model *)

(** The functions compute with binary64 numbers through numpy's [sinh],
    [cosh], [tanh], the power [**] and scipy's [ellipk] and [ellipe].  They
    are modelled over the real numbers, as the functions the float code
    approximates.  Where the float code leaves the finite numbers at a
    singular point, the model has no value: a quotient with a zero divisor
    (NaN or an infinity in the code), [ellipk] at a parameter of 1 or more
    (an infinity or NaN in scipy) and [ellipe] at a parameter above 1 (NaN
    in scipy) are [None].  Rounding and overflow are outside the model.
    The statements about [ene_exact] and [specific_heat_exact] are
    therefore restricted to [bounded_domain], where the float code stays
    finite and away from the singular points; the statements about
    [magnetization_exact] are those that rounding keeps: its float result
    reaches exactly 1 for large [beta], so it is bounded by 1 and
    increasing, though not strictly. *)
Module Exact.
Local Open Scope R_scope.

(** [x ** y] on floats with a fractional exponent [y > 0], over the reals:
    the real power for a positive base, zero at zero.  numpy gives NaN for a
    negative base, which no real number stands for; the lemma
    [magnetization_base_pos] shows that [magnetization_exact] never takes
    that branch. *)
Definition np_power (x y : R) : R :=
  if Rle_dec x 0 then 0 else Rpower x y.

(** [magnetization_exact(beta)] (lines 27-31).  The divisor
    [sinh(2 beta) ** 4] is reached at and above the threshold only, where
    it is larger than 1. *)
Definition magnetization_exact (beta : R) : R :=
  if Rlt_dec beta 0.440686793509772 then 0
  else np_power (1 - 1 / sinh (2 * beta) ^ 4) (1 / 8).

(** The integrands of the complete elliptic integrals of the first and of
    the second kind for the parameter [m] (the squared modulus), as
    [scipy.special.ellipk] and [scipy.special.ellipe] take it. *)
Definition ellipk_integrand (m t : R) : R := / sqrt (1 - m * sin t ^ 2).
Definition ellipe_integrand (m t : R) : R := sqrt (1 - m * sin t ^ 2).

Lemma sin_sq_bounds (t : R) : 0 <= sin t ^ 2 <= 1.
Proof. pose proof (SIN_bound t) as [H1 H2]. split; nra. Qed.

Lemma modulus_term_pos (m t : R) : m < 1 -> 0 < 1 - m * sin t ^ 2.
Proof.
  intros Hm. pose proof (sin_sq_bounds t) as [H0 H1].
  destruct (Rle_dec m 0); nra.
Qed.

Lemma ellipe_integrand_continuous (m t : R) :
  m <= 1 -> continuity_pt (ellipe_integrand m) t.
Proof.
  intros Hm.
  apply (continuity_pt_comp (fun t => 1 - m * sin t ^ 2) sqrt).
  - reg.
  - apply continuity_pt_sqrt. pose proof (sin_sq_bounds t) as [H0 H1].
    destruct (Rle_dec m 0); nra.
Qed.

Lemma ellipk_integrand_continuous (m t : R) :
  m < 1 -> continuity_pt (ellipk_integrand m) t.
Proof.
  intros Hm. apply (continuity_pt_inv (ellipe_integrand m)).
  - apply ellipe_integrand_continuous; lra.
  - unfold ellipe_integrand.
    apply Rgt_not_eq, sqrt_lt_R0, modulus_term_pos, Hm.
Qed.

Lemma ellipk_integrable (m : R) :
  m < 1 -> Riemann_integrable (ellipk_integrand m) 0 (PI / 2).
Proof.
  intros Hm. apply continuity_implies_RiemannInt.
  - pose proof PI2_RGT_0; lra.
  - intros t _. apply ellipk_integrand_continuous, Hm.
Qed.

Lemma ellipe_integrable (m : R) :
  m <= 1 -> Riemann_integrable (ellipe_integrand m) 0 (PI / 2).
Proof.
  intros Hm. apply continuity_implies_RiemannInt.
  - pose proof PI2_RGT_0; lra.
  - intros t _. apply ellipe_integrand_continuous, Hm.
Qed.

(** [scipy.special.ellipk(m)]: the integral of [1 / sqrt(1 - m sin(t)^2)]
    over [0, pi/2] for [m < 1].  scipy returns infinity at [m = 1] and NaN
    above, which are no real numbers. *)
Definition ellipk (m : R) : option R :=
  match Rlt_dec m 1 with
  | left Hm => Some (RiemannInt (ellipk_integrable m Hm))
  | right _ => None
  end.

(** [scipy.special.ellipe(m)]: the integral of [sqrt(1 - m sin(t)^2)] over
    [0, pi/2] for [m <= 1]; scipy returns NaN above. *)
Definition ellipe (m : R) : option R :=
  match Rle_dec m 1 with
  | left Hm => Some (RiemannInt (ellipe_integrable m Hm))
  | right _ => None
  end.

(** [x / y] on floats: the quotient for a divisor other than zero; with a
    zero divisor the float quotient is NaN or an infinity. *)
Definition checked_div (x y : R) : option R :=
  if Req_dec_T y 0 then None else Some (x / y).

(** [ene_exact(J)] (lines 34-39).  The divisor [cosh(J2) ** 4] of line 36
    and the divisor [cosh(J2)] inside [tanh] are at least 1. *)
Definition ene_exact (J : R) : option R :=
  let J2 := 2 * J in
  let k := 4 * sinh J2 ^ 2 / cosh J2 ^ 4 in
  eK ← ellipk k;
  let answer := 1 + (2 / PI) * (2 * tanh J2 ^ 2 - 1) * eK in
  checked_div (- J * cosh J2 * answer) (sinh J2).

(** [specific_heat_exact(beta)] (lines 42-49).  The divisor [np.pi] is not
    zero; the divisor [tanh(B2) ** 2] is zero at [beta = 0]. *)
Definition specific_heat_exact (beta : R) : option R :=
  let B2 := 2 * beta in
  let k := 4 * sinh B2 ^ 2 / cosh B2 ^ 4 in
  Kk ← ellipk k;
  Ek ← ellipe k;
  let kp := 2 * (tanh B2 ^ 2) - 1 in
  let answer := 2 * Kk - 2 * Ek - (1 - kp) * ((PI / 2) + kp * Kk) in
  q ← checked_div (2 * beta ^ 2 / PI) (tanh B2 ^ 2);
  Some (q * answer).

(** The parameter and the closed forms as the specification writes them,
    for the values [K] and [E] of the elliptic integrals. *)
Definition spec_modulus (b : R) : R := 4 * sinh (2 * b) ^ 2 / cosh (2 * b) ^ 4.




(** The threshold literal of [magnetization_exact]. *)
Definition threshold : R := 0.440686793509772.

(** The base of the power in [magnetization_exact]. *)
Definition magnetization_base (b : R) : R := 1 - 1 / sinh (2 * b) ^ 4.


(** The terms [x^n / n!] of the exponential series, over the reals and
    over the rationals, and the partial sums over the rationals; they give
    the lower bounds on [exp] that the numerical statements need. *)
Fixpoint exp_term (x : R) (n : nat) : R :=
  match n with
  | O => 1
  | S m => exp_term x m * x / INR (S m)
  end.

Fixpoint exp_term_Q (x : Q) (n : nat) : Q :=
  match n with
  | O => 1%Q
  | S m => (exp_term_Q x m * x / inject_Z (Z.of_nat (S m)))%Q
  end.

Fixpoint exp_sum_Q (x : Q) (n : nat) : Q :=
  match n with
  | O => exp_term_Q x 0
  | S m => (exp_sum_Q x m + exp_term_Q x (S m))%Q
  end.

(** Twice the threshold, and a rational just above [1 + sqrt 2]. *)
Definition twice_threshold_Q : Q := 881373587019544 # 1000000000000000.
Definition above_silver_Q : Q := 241421356237309505 # 100000000000000000.

End Exact.

(** * Properties *)

(** ** Observable sanitisation *)

Module SanitizeFacts.
Import Sanitize.

(** What [append_observable] appends for a mean and for a variance. *)
Lemma append_observable_eq (name : string) (mg : gmap string attrs)
    (g : attrs) (ol oel : list num) (mean variance : float) :
  mg !! name = Some g ->
  bootstrap_estimate "bootstrap_mean" g = Some mean ->
  bootstrap_estimate "bootstrap_variance" g = Some variance ->
  append_observable name mg ol oel =
  (Ret tt,
   (ol ++ [if is_infinity mean || (1e200 <? mean)%float
           then PyInt (-42) else PyFloat mean],
    oel ++ [if is_infinity variance || (1e200 <? variance)%float
               || is_nan variance
            then PyInt 42 else PyFloat (PrimFloat.sqrt variance)])).
Proof.
  unfold bootstrap_estimate, append_observable, getitem.
  change ("bootstrap_mean" +:+ "_10000_100000")
    with "bootstrap_mean_10000_100000".
  change ("bootstrap_variance" +:+ "_10000_100000")
    with "bootstrap_variance_10000_100000".
  intros -> Hm Hv.
  destruct (g !! "bootstrap_mean_10000_100000") as [t|].
  - injection Hm as ->.
    destruct (g !! "bootstrap_variance_10000_100000") as [t'|].
    + injection Hv as ->.
      destruct (is_infinity mean || (1e200 <? mean)%float),
        (is_infinity variance || (1e200 <? variance)%float || is_nan variance);
        reflexivity.
    + rewrite Hv.
      destruct (is_infinity mean || (1e200 <? mean)%float),
        (is_infinity variance || (1e200 <? variance)%float || is_nan variance);
        reflexivity.
  - rewrite Hm.
    destruct (g !! "bootstrap_variance_10000_100000") as [t'|].
    + injection Hv as ->.
      destruct (is_infinity mean || (1e200 <? mean)%float),
        (is_infinity variance || (1e200 <? variance)%float || is_nan variance);
        reflexivity.
    + rewrite Hv.
      destruct (is_infinity mean || (1e200 <? mean)%float),
        (is_infinity variance || (1e200 <? variance)%float || is_nan variance);
        reflexivity.
Qed.

Lemma plain_group_estimates (mean variance : float) :
  bootstrap_estimate "bootstrap_mean" (plain_group mean variance) = Some mean
  /\ bootstrap_estimate "bootstrap_variance" (plain_group mean variance)
     = Some variance.
Proof. split; vm_compute; reflexivity. Qed.

(** C2, counterexample: for the finite mean [-1e201] (its absolute value is
    above [1e200]) and the variance [0.04], [append_observable] appends the
    mean itself, where the claim asks for the sentinel [-42]. *)
Lemma sanitize_keeps_large_negative_mean :
  append_observable "m" {["m" := large_negative_group]} [] []
  = (Ret tt, ([PyFloat (-1e201)], [PyFloat 0.2]))
  /\ spec_sanitized_value (-1e201) = PyInt (-42)
  /\ PyFloat (-1e201) <> PyInt (-42).
Proof. split; [|split]; [vm_compute; reflexivity.. | discriminate]. Qed.

(** C2, amended: [append_observable] appends the mean unless the mean is
    infinite or greater than [1e200], in which case it appends [-42]; it
    appends the square root of the variance unless the variance is infinite,
    NaN or greater than [1e200], in which case it appends [42], as the
    specification words it.  A mean of
    plus infinity gives [-42], a NaN variance gives [42], and the mean [0.5]
    with variance [0.04] gives [0.5] and [0.2]. *)
Theorem sanitize_rule :
  (forall (name : string) (mg : gmap string attrs) (g : attrs)
          (ol oel : list num) (mean variance : float),
      mg !! name = Some g ->
      bootstrap_estimate "bootstrap_mean" g = Some mean ->
      bootstrap_estimate "bootstrap_variance" g = Some variance ->
      exists v e : num,
        append_observable name mg ol oel = (Ret tt, (ol ++ [v], oel ++ [e]))
        /\ (is_infinity mean = true \/ (1e200 <? mean)%float = true ->
            v = PyInt (-42))
        /\ (is_infinity mean = false -> (1e200 <? mean)%float = false ->
            v = PyFloat mean)
        /\ (is_infinity variance = true \/ is_nan variance = true
            \/ (1e200 <? variance)%float = true -> e = PyInt 42)
        /\ (is_infinity variance = false -> is_nan variance = false ->
            (1e200 <? variance)%float = false ->
            e = PyFloat (PrimFloat.sqrt variance))
        /\ e = spec_sanitized_error variance)
  /\ (forall variance : float,
        (append_observable "m" {["m" := plain_group infinity variance]} [] []).2.1
        = [PyInt (-42)])
  /\ (forall mean : float,
        (append_observable "m" {["m" := plain_group mean nan]} [] []).2.2
        = [PyInt 42])
  /\ append_observable "m" {["m" := plain_group 0.5 0.04]} [] []
     = (Ret tt, ([PyFloat 0.5], [PyFloat 0.2])).
Proof.
  split; [|split; [|split]].
  - intros name mg g ol oel mean variance Hg Hm Hv.
    rewrite (append_observable_eq name mg g ol oel mean variance Hg Hm Hv).
    eexists _, _. split; [reflexivity|].
    split; [|split; [|split; [|split]]].
    + intros [-> | ->]; [reflexivity | rewrite orb_true_r; reflexivity].
    + intros -> ->. reflexivity.
    + intros [-> | [H | ->]].
      * reflexivity.
      * rewrite H, orb_true_r. reflexivity.
      * rewrite orb_true_r. reflexivity.
    + intros -> -> ->. reflexivity.
    + unfold spec_sanitized_error.
      destruct (is_infinity variance), (is_nan variance),
        (1e200 <? variance)%float; reflexivity.
  - intros variance.
    pose proof (plain_group_estimates infinity variance) as [Hm Hv].
    rewrite (append_observable_eq "m" _ _ [] [] _ _
               (lookup_singleton_eq _ _) Hm Hv).
    reflexivity.
  - intros mean.
    pose proof (plain_group_estimates mean nan) as [Hm Hv].
    rewrite (append_observable_eq "m" _ _ [] [] _ _
               (lookup_singleton_eq _ _) Hm Hv).
    reflexivity.
  - vm_compute. reflexivity.
Qed.

(** The rule at the group that holds the mean [0.5] and the variance
    [0.04]. *)
Lemma sanitize_rule_witness :
  exists v e : num,
    append_observable "m" {["m" := plain_group 0.5 0.04]} [PyInt 1] []
    = (Ret tt, ([PyInt 1] ++ [v], [] ++ [e]))
    /\ (is_infinity 0.5 = false -> (1e200 <? 0.5)%float = false ->
        v = PyFloat 0.5).
Proof.
  destruct (proj1 sanitize_rule "m" {["m" := plain_group 0.5 0.04]}
              (plain_group 0.5 0.04) [PyInt 1] [] 0.5%float 0.04%float)
    as (v & e & Heq & _ & Hv & _).
  - vm_compute; reflexivity.
  - vm_compute; reflexivity.
  - vm_compute; reflexivity.
  - exists v, e. split; [exact Heq | exact Hv].
Defined.

End SanitizeFacts.

(** ** The scaling-fit pipeline *)

Module InfoPlotFacts.
Import Sanitize SanitizeFacts InfoPlot.

(** *** Checkpoint selection *)

Lemma sufix_not_empty (i : Z) : Nat.eqb (String.length (sufix i)) 0 = false.
Proof. reflexivity. Qed.

Lemma checkpoints_lookup (k : nat) (i : Z) :
  checkpoints !! k = Some i -> i = (1000 + Z.of_nat k * 1000)%Z.
Proof.
  unfold checkpoints, range. rewrite list_lookup_fmap.
  destruct (seq 0 _ !! k) as [j|] eqn:Hj; [|discriminate].
  apply lookup_seq in Hj as [-> _]. simpl. intros [= <-]. reflexivity.
Qed.

(** Once a suffix is held, the rest of the scan keeps it. *)
Lemma scan_sufix_keeps (g : attrs) (todo : list Z) (held s : string) :
  Nat.eqb (String.length held) 0 = false ->
  scan_sufix g todo held = Ret s -> s = held.
Proof.
  revert held. induction todo as [|i todo IH]; intros held Hheld; simpl.
  - congruence.
  - destruct (g !! _); [|apply IH, Hheld].
    destruct (getitem g _); simpl; [|discriminate].
    rewrite Hheld. apply IH, Hheld.
Qed.

(** The scan returns the suffix of the first checkpoint that is recorded
    for the autocorrelation time, and the empty suffix when none is. *)
Lemma scan_sufix_first (g : attrs) (todo : list Z) (s : string) :
  scan_sufix g todo "" = Ret s ->
  s = match list_find
              (fun i => is_Some (g !! ("int_auto_correlation_time" +:+ sufix i)))
              todo with
      | Some (_, i) => sufix i
      | None => ""
      end.
Proof.
  induction todo as [|i todo IH]; simpl.
  - congruence.
  - destruct (g !! _) as [t|] eqn:Hi.
    + destruct (getitem g _); simpl; [|discriminate].
      intros Hs. apply scan_sufix_keeps in Hs; [exact Hs|].
      apply sufix_not_empty.
    + intros Hs. specialize (IH Hs).
      destruct (list_find _ todo) as [[j i']|]; exact IH.
Qed.

(** The scan returns when every checkpoint of the autocorrelation time
    comes with its statistical error. *)
Lemma scan_sufix_returns (g : attrs) (todo : list Z) (held : string) :
  (forall i, i ∈ todo ->
     is_Some (g !! ("int_auto_correlation_time" +:+ sufix i)) ->
     is_Some (g !! ("int_auto_correlation_time_stat_error" +:+ sufix i))) ->
  exists s, scan_sufix g todo held = Ret s.
Proof.
  revert held. induction todo as [|i todo IH]; intros held Hok; simpl.
  - eauto.
  - destruct (g !! ("int_auto_correlation_time" +:+ sufix i)) as [t|] eqn:Hi.
    + destruct (Hok i) as [e He]; [left | rewrite Hi; eauto |].
      unfold getitem. rewrite He. simpl.
      apply IH. intros i' Hin. apply Hok. right. exact Hin.
    + apply IH. intros i' Hin. apply Hok. right. exact Hin.
Qed.

(** C3, counterexample: with means recorded under [_1000_100000] and
    [_10000_100000], the checkpoint with the largest sample range holds [1],
    and [append_observable] appends [2], the mean of [_10000_100000]. *)
Lemma append_observable_skips_largest_range :
  spec_final_estimate "bootstrap_mean" two_checkpoints_group = Some 1%float
  /\ append_observable "m" {["m" := two_checkpoints_group]} [] []
     = (Ret tt, ([PyFloat 2], [PyFloat 0.2]))
  /\ PyFloat 2 <> PyFloat 1.
Proof.
  split; [|split]; [vm_compute; reflexivity.. | discriminate].
Qed.

(** C3, amended: in [info_plot] the autocorrelation time that is used is
    the one of the recorded checkpoint [_i_100000] with the largest sample
    range, and the unsuffixed one when no checkpoint is recorded; the scan
    returns whenever each recorded checkpoint comes with its statistical
    error.  [append_observable] consults the single checkpoint
    [_10000_100000]: it uses that estimate when it is recorded and the
    unsuffixed estimate otherwise. *)
Theorem checkpoint_selection :
  (forall (g : attrs) (s : string),
      scan_sufix g checkpoints "" = Ret s ->
      g !! ("int_auto_correlation_time" +:+ s)
      = spec_final_estimate "int_auto_correlation_time" g
      /\ ((s = ""
           /\ forall i, i ∈ checkpoints ->
                g !! ("int_auto_correlation_time" +:+ sufix i) = None)
          \/ exists i0,
               i0 ∈ checkpoints /\ s = sufix i0
               /\ is_Some (g !! ("int_auto_correlation_time" +:+ sufix i0))
               /\ forall i, i ∈ checkpoints ->
                    is_Some (g !! ("int_auto_correlation_time" +:+ sufix i)) ->
                    (100000 - i <= 100000 - i0)%Z))
  /\ (forall g : attrs,
        (forall i, i ∈ checkpoints ->
           is_Some (g !! ("int_auto_correlation_time" +:+ sufix i)) ->
           is_Some (g !! ("int_auto_correlation_time_stat_error" +:+ sufix i))) ->
        exists s, scan_sufix g checkpoints "" = Ret s)
  /\ (forall (name : string) (mg : gmap string attrs) (g : attrs)
             (ol oel : list num) (mean variance : float),
        mg !! name = Some g ->
        bootstrap_estimate "bootstrap_mean" g = Some mean ->
        bootstrap_estimate "bootstrap_variance" g = Some variance ->
        append_observable name mg ol oel
        = append_observable name {[name := plain_group mean variance]} ol oel).
Proof.
  split; [|split].
  - intros g s Hs. apply scan_sufix_first in Hs. unfold spec_final_estimate.
    destruct (list_find _ checkpoints) as [[k i0]|] eqn:Hfind; subst s.
    + split; [reflexivity|]. right. exists i0.
      apply list_find_Some in Hfind as (Hk & Hi0 & Hmin).
      split; [eapply list_elem_of_lookup_2, Hk|].
      split; [reflexivity|]. split; [exact Hi0|].
      intros i Hin Hi. apply list_elem_of_lookup in Hin as [j Hj].
      destruct (decide (j < k)) as [Hlt|Hge].
      * destruct (Hmin j i Hj Hlt Hi).
      * apply checkpoints_lookup in Hj, Hk. lia.
    + split; [reflexivity|]. left. split; [reflexivity|].
      apply list_find_None in Hfind. intros i Hin.
      eapply Forall_forall in Hfind; [|exact Hin].
      destruct (g !! _); [|reflexivity]. destruct Hfind. eauto.
  - intros g Hok. apply scan_sufix_returns, Hok.
  - intros name mg g ol oel mean variance Hg Hm Hv.
    rewrite (append_observable_eq name mg g ol oel mean variance Hg Hm Hv).
    pose proof (plain_group_estimates mean variance) as [Hm' Hv'].
    rewrite (append_observable_eq name _ _ ol oel mean variance
               (lookup_singleton_eq _ _) Hm' Hv').
    reflexivity.
Qed.

(** The selection on an autocorrelation time with the checkpoints
    [_2000_100000] and [_5000_100000]: the first one is used. *)
Lemma checkpoint_selection_witness :
  two_tau_checkpoints_group !! ("int_auto_correlation_time" +:+ sufix 2000)
  = spec_final_estimate "int_auto_correlation_time" two_tau_checkpoints_group
  /\ two_tau_checkpoints_group !! "int_auto_correlation_time_2000_100000"
     = Some 2%float.
Proof.
  split.
  - apply (proj1 checkpoint_selection two_tau_checkpoints_group (sufix 2000)).
    vm_compute. reflexivity.
  - vm_compute. reflexivity.
Defined.

(** *** The aggregation loop in closed form *)

Lemma aggregate_step_collect (r : run_lists) (ws done : list row) (i : nat)
    (w : row) :
  stores r ws -> ws !! i = Some w ->
  aggregate_step r i (row_nu_pre w) (collect done)
  = Ret (collect (done ++ [w])).
Proof.
  intros (Hn & Hs & Ht & Hb & He) Hw.
  unfold aggregate_step, index.
  rewrite Hs, Ht, Hb, He, !list_lookup_fmap, Hw. simpl.
  unfold collect, push_hmc, push_multi_hmc. simpl.
  rewrite !filter_app, !fmap_app.
  destruct (Z.eqb_spec (row_nu_pre w) (-1)) as [Hnu|Hnu];
    destruct (Z.ltb_spec (row_size w) (33 * 33)) as [H33|H33];
    try destruct (Z.ltb_spec (row_size w) (5 * 5)) as [H5|H5].
  all: try (exfalso; lia).
  all: try (rewrite (filter_cons_True in_hmc_fit w [])
              by (unfold in_hmc_fit; lia)).
  all: try (rewrite (filter_cons_False in_hmc_fit w [])
              by (unfold in_hmc_fit; lia)).
  all: try (rewrite (filter_cons_True in_multi_fit w [])
              by (unfold in_multi_fit; lia)).
  all: try (rewrite (filter_cons_False in_multi_fit w [])
              by (unfold in_multi_fit; lia)).
  all: rewrite ?filter_nil; simpl; rewrite ?app_nil_r; reflexivity.
Qed.

Lemma aggregate_from_collect (r : run_lists) (ws : list row) :
  stores r ws ->
  forall (rest done : list row),
    ws = done ++ rest ->
    aggregate_from r (length done) (row_nu_pre <$> rest) (collect done)
    = Ret (collect ws).
Proof.
  intros Hst rest. induction rest as [|w rest IH]; intros done ->.
  - rewrite app_nil_r. reflexivity.
  - rewrite fmap_cons. cbn [aggregate_from].
    rewrite (aggregate_step_collect r (done ++ w :: rest) done _ w Hst)
      by apply list_lookup_middle, eq_refl.
    cbn [mbind outcome_bind]. specialize (IH (done ++ [w])).
    rewrite length_app in IH. cbn [length] in IH.
    replace (length done + 1) with (S (length done)) in IH by lia.
    apply IH. rewrite <- app_assoc. reflexivity.
Qed.

(** The aggregation loop returns, and its vectors are those of
    [collect]. *)
Lemma aggregate_collect (r : run_lists) (ws : list row) :
  stores r ws -> aggregate r = Ret (collect ws).
Proof.
  intros Hst. unfold aggregate. rewrite (proj1 Hst).
  apply (aggregate_from_collect r ws Hst ws []). reflexivity.
Qed.

(** *** The first loop *)

Lemma stores_no_runs : stores no_runs [].
Proof. repeat split. Qed.

Lemma last_item_snoc {V} (l : list V) (x : V) : last_item (l ++ [x]) = Ret x.
Proof. unfold last_item. rewrite last_snoc. reflexivity. Qed.

Lemma level_branch_returns (f : h5file) (gs : list Z) :
  exists label : string,
    level_branch f (gs ++ [attr_gamma f])
    = Ret (label,
           match level1 f with Some l => l1_nu_pre l | None => (-1)%Z end,
           match level1 f with Some l => l1_nu_post l | None => (-1)%Z end).
Proof.
  unfold level_branch. destruct (level1 f) as [l|].
  - rewrite last_item_snoc. simpl. eauto.
  - eauto.
Qed.

(** A file without the observable leaves the lists as they are; a file with
    it adds one run, or the read raises. *)
Lemma read_file_stores (name : string) (f : h5file) (r r' : run_lists)
    (ws : list row) :
  stores r ws -> read_file name f r = Ret r' ->
  (measurements f !! name = None /\ r' = r)
  \/ exists w, reads name f w /\ stores r' (ws ++ [w]).
Proof.
  intros (Hn & Hs & Ht & Hb & He). unfold read_file.
  destruct (measurements f !! name) as [g|] eqn:Hg; [|intros [= <-]; auto].
  destruct (scan_sufix g checkpoints "") as [s|] eqn:Hscan; [|discriminate].
  cbn [mbind outcome_bind]. unfold getitem.
  destruct (g !! ("int_auto_correlation_time" +:+ s)) as [tau|] eqn:Htau;
    [|discriminate].
  cbn [mbind outcome_bind].
  destruct (g !! ("int_auto_correlation_time_bias" +:+ s)) as [bias|] eqn:Hbias;
    [|discriminate].
  cbn [mbind outcome_bind].
  destruct (g !! ("int_auto_correlation_time_stat_error" +:+ s))
    as [err|] eqn:Herr; [|discriminate].
  cbn [mbind outcome_bind].
  destruct (level_branch_returns f (gamma r)) as [label ->].
  cbn [mbind outcome_bind]. rewrite last_item_snoc. cbn [mbind outcome_bind].
  intros [= <-]. right.
  exists (Row (match level1 f with Some l => l1_nu_pre l | None => (-1)%Z end)
              (len_h f) tau bias err).
  split.
  - exists g, s. repeat split; assumption.
  - unfold stores. cbn. rewrite !fmap_app, Hn, Hs, Ht, Hb, He.
    repeat split; reflexivity.
Qed.

Lemma read_files_stores (name : string) (file_list : list h5file) :
  forall (r r' : run_lists) (ws : list row),
    stores r ws -> read_files name file_list r = Ret r' ->
    exists ws', stores r' (ws ++ ws')
                /\ Forall2 (reads name) (runs_of name file_list) ws'.
Proof.
  induction file_list as [|f fl IH]; intros r r' ws Hst; cbn [read_files].
  - intros [= <-]. exists []. rewrite app_nil_r. split; [exact Hst|constructor].
  - destruct (read_file name f r) as [r1|] eqn:Hf; [|discriminate].
    cbn [mbind outcome_bind]. intros Hrest. unfold runs_of.
    destruct (read_file_stores name f r r1 ws Hst Hf)
      as [[Hnone ->] | (w & Hw & Hst1)].
    + destruct (IH r r' ws Hst Hrest) as (ws' & Hst' & Hall).
      exists ws'. split; [exact Hst'|].
      rewrite filter_cons_False; [exact Hall|].
      rewrite Hnone. intros [? [=]].
    + destruct (IH r1 r' (ws ++ [w]) Hst1 Hrest) as (ws' & Hst' & Hall).
      exists (w :: ws'). rewrite <- app_assoc in Hst'. split; [exact Hst'|].
      destruct Hw as (g & s & Hg & Hw).
      rewrite filter_cons_True by (rewrite Hg; eauto).
      constructor; [exists g, s; split; assumption | exact Hall].
Qed.

(** The two loops in closed form: the fit vectors are those of the runs
    read from the files that hold the observable. *)
Lemma fit_input_collect (name : string) (file_list : list h5file)
    (v : fit_vectors) :
  fit_input name file_list = Ret v ->
  exists ws, Forall2 (reads name) (runs_of name file_list) ws
             /\ v = collect ws.
Proof.
  unfold fit_input.
  destruct (read_files name file_list no_runs) as [r|] eqn:Hr; [|discriminate].
  cbn [mbind outcome_bind]. intros Hv.
  destruct (read_files_stores name file_list no_runs r [] stores_no_runs Hr)
    as (ws & Hst & Hall).
  exists ws. split; [exact Hall|].
  rewrite (aggregate_collect r ws Hst) in Hv. congruence.
Qed.

(** The read of a file returns when its observable group can be read. *)
Lemma read_file_returns (name : string) (f : h5file) (r : run_lists) :
  (is_Some (measurements f !! name) -> exists w, reads name f w) ->
  exists r', read_file name f r = Ret r'.
Proof.
  intros Hok. unfold read_file.
  destruct (measurements f !! name) as [g|] eqn:Hg; [|eauto].
  destruct Hok as (w & g' & s & Hg' & Hscan & Htau & Hbias & Herr & _);
    [eauto|].
  rewrite Hg in Hg'. injection Hg' as <-. rewrite Hscan. cbn [mbind outcome_bind].
  unfold getitem. rewrite Htau, Hbias, Herr. cbn [mbind outcome_bind].
  destruct (level_branch_returns f (gamma r)) as [label ->].
  cbn [mbind outcome_bind]. rewrite last_item_snoc. cbn [mbind outcome_bind].
  eauto.
Qed.

Lemma read_files_returns (name : string) (file_list : list h5file) :
  (forall f, f ∈ file_list -> is_Some (measurements f !! name) ->
             exists w, reads name f w) ->
  forall r, exists r', read_files name file_list r = Ret r'.
Proof.
  induction file_list as [|f fl IH]; intros Hok r; cbn [read_files].
  - eauto.
  - destruct (read_file_returns name f r) as [r1 ->].
    + apply Hok. left.
    + cbn [mbind outcome_bind]. apply IH. intros f' Hin. apply Hok.
      right. exact Hin.
Qed.

(** The two loops return when every file that holds the observable can be
    read. *)
Lemma fit_input_returns (name : string) (file_list : list h5file) :
  (forall f, f ∈ file_list -> is_Some (measurements f !! name) ->
             exists w, reads name f w) ->
  exists v, fit_input name file_list = Ret v.
Proof.
  intros Hok. unfold fit_input.
  destruct (read_files_returns name file_list Hok no_runs) as [r Hr].
  rewrite Hr. cbn [mbind outcome_bind].
  destruct (read_files_stores name file_list no_runs r [] stores_no_runs Hr)
    as (ws & Hst & _).
  rewrite (aggregate_collect r ws Hst). eauto.
Qed.

(** *** The points of the two fits *)

Lemma zip_fmap3 {A B C D} (f : A -> B) (g : A -> C) (h : A -> D)
    (l : list A) :
  zip (f <$> l) (zip (g <$> l) (h <$> l)) = (fun a => (f a, (g a, h a))) <$> l.
Proof. induction l as [|a l IH]; [reflexivity|]. cbn. rewrite IH. reflexivity. Qed.

Lemma points_collect (ws : list row) :
  points_hmc (collect ws) = point <$> filter in_hmc_fit ws
  /\ points_multi_hmc (collect ws) = point <$> filter in_multi_fit ws.
Proof. split; apply zip_fmap3. Qed.

Lemma reads_single_level (name : string) (f : h5file) (w : row) :
  reads name f w -> level1 f = None ->
  row_nu_pre w = (-1)%Z /\ row_size w = len_h f.
Proof.
  intros (g & s & _ & _ & _ & _ & _ & Hsize & Hnu) Hl. rewrite Hl in Hnu. auto.
Qed.

(** *** The cycle type does not reach the fits *)





(** *** Membership of the fit groups *)

(** C1, counterexample: a multilevel run on a 16 x 16 grid, whose 256 sites
    are not below 5 x 5, contributes its point [(16, 3, 0.25)] to the
    multilevel fit. *)
Lemma multilevel_fit_takes_16x16_run :
  is_Some (level1 mlhmc_16x16)
  /\ (5 * 5 <= len_h mlhmc_16x16)%Z
  /\ exists v, fit_input "magnetization" [mlhmc_16x16] = Ret v
               /\ points_multi_hmc v = [(16, (3, 0.25))%float].
Proof.
  split; [eauto|]. split; [vm_compute; discriminate|].
  eexists. split; vm_compute; reflexivity.
Qed.

(** C1, amended: the points of each fit are those of the runs below the
    cutoff the code applies.  A single-level run contributes to the
    single-level fit only when its site count is below 33 x 33, and a
    multilevel run contributes to the multilevel fit only when its site
    count is below 33 x 33 (not 5 x 5). *)
Theorem fit_group_cutoffs (name : string) (file_list : list h5file)
    (v : fit_vectors) :
  fit_input name file_list = Ret v ->
  exists ws : list row,
    Forall2 (reads name) (runs_of name file_list) ws
    /\ points_hmc v = point <$> filter in_hmc_fit ws
    /\ points_multi_hmc v = point <$> filter in_multi_fit ws
    /\ (forall f w, reads name f w -> level1 f = None ->
          in_hmc_fit w -> (len_h f < 33 * 33)%Z)
    /\ (forall f w, reads name f w -> is_Some (level1 f) ->
          in_multi_fit w -> (len_h f < 33 * 33)%Z).
Proof.
  intros Hv. destruct (fit_input_collect name file_list v Hv) as (ws & Hall & ->).
  exists ws. destruct (points_collect ws) as [Hh Hm].
  split; [exact Hall|]. split; [exact Hh|]. split; [exact Hm|]. split.
  - intros f w (g & s & _ & _ & _ & _ & _ & Hsize & _) _ [_ Hlt]. lia.
  - intros f w (g & s & _ & _ & _ & _ & _ & Hsize & _) _ [[_ Hlt]|[_ Hlt]]; lia.
Qed.

(** The cutoffs on a multilevel 16 x 16 run followed by a single-level
    4 x 4 run. *)
Lemma fit_group_cutoffs_witness :
  exists ws : list row,
    Forall2 (reads "magnetization")
            (runs_of "magnetization" [mlhmc_16x16; hmc_4x4]) ws
    /\ points_hmc (collect [Row 2 256 3 0.5 0.25; Row (-1) 16 7 0.5 0.25])
       = point <$> filter in_hmc_fit ws
    /\ points_multi_hmc
         (collect [Row 2 256 3 0.5 0.25; Row (-1) 16 7 0.5 0.25])
       = point <$> filter in_multi_fit ws
    /\ (forall f w, reads "magnetization" f w -> level1 f = None ->
          in_hmc_fit w -> (len_h f < 33 * 33)%Z)
    /\ (forall f w, reads "magnetization" f w -> is_Some (level1 f) ->
          in_multi_fit w -> (len_h f < 33 * 33)%Z).
Proof.
  apply (fit_group_cutoffs "magnetization" [mlhmc_16x16; hmc_4x4]).
  vm_compute. reflexivity.
Defined.

(** C10: a run without a second level whose site count is below 25 has its
    point (square root of the site count, autocorrelation time, error) in
    the single-level fit vectors and in the multilevel fit vectors. *)
Theorem small_single_level_run_in_both_fits (name : string)
    (file_list : list h5file) (v : fit_vectors) (f : h5file) :
  fit_input name file_list = Ret v ->
  f ∈ file_list ->
  is_Some (measurements f !! name) ->
  level1 f = None ->
  (len_h f < 5 * 5)%Z ->
  exists w : row,
    reads name f w
    /\ point w = (np_sqrt_int (len_h f), (row_tau w, row_err w))
    /\ point w ∈ points_hmc v
    /\ point w ∈ points_multi_hmc v.
Proof.
  intros Hv Hin Hobs Hl Hsmall.
  destruct (fit_input_collect name file_list v Hv) as (ws & Hall & ->).
  assert (f ∈ runs_of name file_list) as Hrun
    by (apply list_elem_of_filter; auto).
  apply list_elem_of_lookup in Hrun as [i Hi].
  destruct (Forall2_lookup_l _ _ _ _ _ Hall Hi) as (w & Hw & Hreads).
  destruct (reads_single_level name f w Hreads Hl) as [Hnu Hsize].
  destruct (points_collect ws) as [-> ->].
  exists w. split; [exact Hreads|]. split.
  - unfold point, point_x. rewrite Hsize. reflexivity.
  - split; apply list_elem_of_fmap_2, list_elem_of_filter;
      (split; [|eapply list_elem_of_lookup_2, Hw]).
    + split; [exact Hnu | lia].
    + left. split; [exact Hnu | lia].
Qed.

(** The single-level 4 x 4 run of the example is in both fits. *)
Lemma small_single_level_run_in_both_fits_witness :
  exists w : row,
    reads "magnetization" hmc_4x4 w
    /\ point w = (np_sqrt_int (len_h hmc_4x4), (row_tau w, row_err w))
    /\ point w
       ∈ points_hmc (collect [Row 2 256 3 0.5 0.25; Row (-1) 16 7 0.5 0.25])
    /\ point w
       ∈ points_multi_hmc
           (collect [Row 2 256 3 0.5 0.25; Row (-1) 16 7 0.5 0.25]).
Proof.
  apply (small_single_level_run_in_both_fits "magnetization"
           [mlhmc_16x16; hmc_4x4]).
  - vm_compute. reflexivity.
  - apply list_elem_of_In. right. left. reflexivity.
  - exists (tau_group 7 0.5 0.25). apply lookup_singleton_eq.
  - reflexivity.
  - vm_compute. reflexivity.
Defined.

(** *** Partition of the runs *)





(** *** Degenerate fits *)

(** The stage never ends normally without the coefficients of both fits. *)
Lemma fit_stage_returns_with_both_lines
    (curve_fit : list float -> list float -> list float ->
                 outcome (float * float * covariance))
    (np_power : float -> float -> float) (np_sum : list float -> float)
    (name : string) (v : fit_vectors) :
  (fit_stage curve_fit np_power np_sum name v).2 = Ret tt ->
  exists hmc_fit mlhmc_fit,
    curve_fit (x_wo_bias_correction_hmc v) (y_wo_bias_correction_hmc v)
              (yerr_wo_bias_correction_hmc v) = Ret hmc_fit
    /\ curve_fit (x_wo_bias_correction_multi_hmc v)
                 (y_wo_bias_correction_multi_hmc v)
                 (yerr_wo_bias_correction_multi_hmc v) = Ret mlhmc_fit
    /\ (fit_stage curve_fit np_power np_sum name v).1
       = [report np_power np_sum "HMC" name (x_wo_bias_correction_hmc v)
                 (y_wo_bias_correction_hmc v) (yerr_wo_bias_correction_hmc v)
                 hmc_fit;
          report np_power np_sum "MLHMC" name
                 (x_wo_bias_correction_multi_hmc v)
                 (y_wo_bias_correction_multi_hmc v)
                 (yerr_wo_bias_correction_multi_hmc v) mlhmc_fit].
Proof.
  unfold fit_stage.
  destruct (curve_fit (x_wo_bias_correction_hmc v) (y_wo_bias_correction_hmc v)
              (yerr_wo_bias_correction_hmc v)) as [fit1|e1]; [|discriminate].
  destruct (curve_fit (x_wo_bias_correction_multi_hmc v)
              (y_wo_bias_correction_multi_hmc v)
              (yerr_wo_bias_correction_multi_hmc v)) as [fit2|e2];
    [|discriminate].
  destruct (curve_fit (x_wo_bias_correction_hmc v) (y_w_bias_correction_hmc v)
              (yerr_wo_bias_correction_hmc v)) as [fit3|e3]; [|discriminate].
  destruct (curve_fit (x_wo_bias_correction_multi_hmc v)
              (y_w_bias_correction_multi_hmc v)
              (yerr_wo_bias_correction_multi_hmc v)) as [fit4|e4];
    [|discriminate].
  intros _. exists fit1, fit2. repeat split; reflexivity.
Qed.

Lemma report_class (np_power : float -> float -> float)
    (np_sum : list float -> float) (class name : string)
    (x y yerr : list float) (fit : float * float * covariance) :
  rl_class (report np_power np_sum class name x y yerr fit) = class.
Proof. destruct fit as [popt pcov]. reflexivity. Qed.

Lemma no_reported_fit_error
    (curve_fit : list float -> list float -> list float ->
                 outcome (float * float * covariance))
    (np_power : float -> float -> float) (np_sum : list float -> float)
    (name : string) (v : fit_vectors) (class : string) :
  class = "HMC" \/ class = "MLHMC" ->
  ~ reported_fit_error class (fit_stage curve_fit np_power np_sum name v).
Proof.
  intros Hclass [Hret Hlines].
  destruct (fit_stage_returns_with_both_lines curve_fit np_power np_sum name v
              Hret) as (f1 & f2 & _ & _ & Heq).
  rewrite Heq in Hlines.
  apply Forall_cons in Hlines as [H1 Hlines].
  apply Forall_cons in Hlines as [H2 _].
  rewrite report_class in H1, H2. destruct Hclass; congruence.
Qed.

(** C9, counterexample: on fit vectors with two points and a zero error
    bar, no solver makes the stage report a fit error and go on; a solver
    that returns has its coefficients written to the report, and a solver
    that raises ends [info_plot] with its exception and an empty report. *)
Lemma degenerate_fit_is_not_reported :
  degenerate (x_wo_bias_correction_hmc two_point_vectors)
             (yerr_wo_bias_correction_hmc two_point_vectors)
  /\ (forall curve_fit np_power np_sum,
        ~ reported_fit_error "HMC"
            (fit_stage curve_fit np_power np_sum "magnetization"
                       two_point_vectors))
  /\ (forall np_power np_sum,
        exists hmc_line mlhmc_line,
          fit_stage returning_solver np_power np_sum "magnetization"
                    two_point_vectors
          = ([hmc_line; mlhmc_line], Ret tt)
          /\ rl_a hmc_line = 1%float /\ rl_z hmc_line = 1%float)
  /\ (forall np_power np_sum,
        fit_stage raising_solver np_power np_sum "magnetization"
                  two_point_vectors
        = ([], Raise (SolverError "singular"))).
Proof.
  split; [|split; [|split]].
  - left. cbn. lia.
  - intros curve_fit np_power np_sum. apply no_reported_fit_error. auto.
  - intros np_power np_sum. eexists _, _. split; [reflexivity|]. split; reflexivity.
  - reflexivity.
Qed.

(** C9, amended: [info_plot] makes no check of its own on the fit vectors.
    It hands them to the solver as they are: when the solver raises, the
    exception ends [info_plot] and only the lines of earlier fits are in the
    report; when the stage ends normally, the report holds the coefficients
    the solver returned for both fits.  In neither case is a fit error
    reported while the run goes on. *)
Theorem fit_failure_propagates
    (curve_fit : list float -> list float -> list float ->
                 outcome (float * float * covariance))
    (np_power : float -> float -> float) (np_sum : list float -> float)
    (name : string) (v : fit_vectors) :
  (forall e,
      curve_fit (x_wo_bias_correction_hmc v) (y_wo_bias_correction_hmc v)
                (yerr_wo_bias_correction_hmc v) = Raise e ->
      fit_stage curve_fit np_power np_sum name v = ([], Raise e))
  /\ (forall hmc_fit e,
        curve_fit (x_wo_bias_correction_hmc v) (y_wo_bias_correction_hmc v)
                  (yerr_wo_bias_correction_hmc v) = Ret hmc_fit ->
        curve_fit (x_wo_bias_correction_multi_hmc v)
                  (y_wo_bias_correction_multi_hmc v)
                  (yerr_wo_bias_correction_multi_hmc v) = Raise e ->
        fit_stage curve_fit np_power np_sum name v
        = ([report np_power np_sum "HMC" name (x_wo_bias_correction_hmc v)
                   (y_wo_bias_correction_hmc v)
                   (yerr_wo_bias_correction_hmc v) hmc_fit],
           Raise e))
  /\ ((fit_stage curve_fit np_power np_sum name v).2 = Ret tt ->
      exists hmc_fit mlhmc_fit,
        curve_fit (x_wo_bias_correction_hmc v) (y_wo_bias_correction_hmc v)
                  (yerr_wo_bias_correction_hmc v) = Ret hmc_fit
        /\ curve_fit (x_wo_bias_correction_multi_hmc v)
                     (y_wo_bias_correction_multi_hmc v)
                     (yerr_wo_bias_correction_multi_hmc v) = Ret mlhmc_fit
        /\ (fit_stage curve_fit np_power np_sum name v).1
           = [report np_power np_sum "HMC" name (x_wo_bias_correction_hmc v)
                     (y_wo_bias_correction_hmc v)
                     (yerr_wo_bias_correction_hmc v) hmc_fit;
              report np_power np_sum "MLHMC" name
                     (x_wo_bias_correction_multi_hmc v)
                     (y_wo_bias_correction_multi_hmc v)
                     (yerr_wo_bias_correction_multi_hmc v) mlhmc_fit])
  /\ (forall class, class = "HMC" \/ class = "MLHMC" ->
        ~ reported_fit_error class
            (fit_stage curve_fit np_power np_sum name v))
  /\ (forall file_list e,
        fit_input name file_list = Raise e ->
        info_plot curve_fit np_power np_sum name file_list = ([], Raise e)).
Proof.
  split; [|split; [|split; [|split]]].
  - intros e He. unfold fit_stage. rewrite He. reflexivity.
  - intros fit e Hfit He. unfold fit_stage. rewrite Hfit, He. reflexivity.
  - apply fit_stage_returns_with_both_lines.
  - intros class. apply no_reported_fit_error.
  - intros file_list e He. unfold info_plot. rewrite He. reflexivity.
Qed.

(** The stage on the two-point vectors with the solver that raises. *)
Lemma fit_failure_propagates_witness :
  fit_stage raising_solver (fun x _ => x) (fun _ => 0%float) "magnetization"
            two_point_vectors
  = ([], Raise (SolverError "singular")).
Proof.
  apply (proj1 (fit_failure_propagates raising_solver (fun x _ => x)
                  (fun _ => 0%float) "magnetization" two_point_vectors)).
  reflexivity.
Defined.

End InfoPlotFacts.

(** ** The closed forms *)

Module ExactFacts.
Import Exact.
Local Open Scope R_scope.

(** *** Lower bounds on the exponential *)

Lemma exp_term_eq (x : R) (n : nat) : / INR (fact n) * x ^ n = exp_term x n.
Proof.
  induction n as [|n IH].
  - simpl. lra.
  - cbn [exp_term]. rewrite <- IH. rewrite fact_simpl, mult_INR.
    cbn [pow]. field. split; [apply INR_fact_neq_0 | apply not_0_INR; lia].
Qed.

Lemma exp_term_nonneg (x : R) (n : nat) : 0 <= x -> 0 <= exp_term x n.
Proof.
  intros Hx. induction n as [|n IH]; cbn [exp_term]; [lra|].
  apply Rmult_le_pos; [apply Rmult_le_pos; assumption|].
  apply Rlt_le, Rinv_0_lt_compat, lt_0_INR. lia.
Qed.

(** Every partial sum of the series is below [exp x] for [x >= 0]. *)
Lemma exp_partial_sum (x : R) (N : nat) :
  0 <= x -> sum_f_R0 (exp_term x) N <= exp x.
Proof.
  intros Hx. apply sum_incr.
  - unfold exp. destruct (exist_exp x) as [l Hl]. simpl.
    intros eps Heps. destruct (Hl eps Heps) as [N0 HN0]. exists N0.
    intros n Hn. specialize (HN0 n Hn).
    erewrite sum_eq; [exact HN0|].
    intros i _. simpl. symmetry. apply exp_term_eq.
  - intros n. apply exp_term_nonneg, Hx.
Qed.

Lemma Q2R_exp_term (x : Q) (n : nat) :
  Q2R (exp_term_Q x n) = exp_term (Q2R x) n.
Proof.
  induction n as [|n IH].
  - simpl. unfold Q2R. simpl. lra.
  - cbn [exp_term_Q exp_term]. unfold Qdiv.
    rewrite Q2R_mult, Q2R_mult, Q2R_inv, IH.
    + rewrite INR_IZR_INZ.
      replace (Q2R (inject_Z (Z.of_nat (S n)))) with (IZR (Z.of_nat (S n)))
        by (unfold Q2R; cbn [Qnum Qden inject_Z]; lra).
      reflexivity.
    + unfold Qeq. cbn [Qnum Qden inject_Z]. lia.
Qed.

Lemma Q2R_exp_sum (x : Q) (n : nat) :
  Q2R (exp_sum_Q x n) = sum_f_R0 (exp_term (Q2R x)) n.
Proof.
  induction n as [|n IH].
  - apply (Q2R_exp_term x 0).
  - cbn [exp_sum_Q sum_f_R0]. rewrite Q2R_plus, IH, Q2R_exp_term. reflexivity.
Qed.

(** [exp] of twice the threshold is above [1 + sqrt 2]: twenty terms of the
    series suffice. *)
Lemma exp_twice_threshold : 2.41421356237309505 < exp (2 * threshold).
Proof.
  unfold threshold.
  apply Rlt_le_trans with (Q2R (exp_sum_Q twice_threshold_Q 20)).
  - replace 2.41421356237309505 with (Q2R above_silver_Q)
      by (unfold Q2R, above_silver_Q; simpl; lra).
    apply Qlt_Rlt. vm_compute. reflexivity.
  - rewrite Q2R_exp_sum.
    replace (2 * 0.440686793509772) with (Q2R twice_threshold_Q)
      by (unfold Q2R, twice_threshold_Q; simpl; lra).
    apply exp_partial_sum. unfold Q2R, twice_threshold_Q; simpl; lra.
Qed.

(** *** The magnetization *)

Lemma sinh_threshold : 1 < sinh (2 * threshold).
Proof.
  unfold sinh. rewrite exp_Ropp.
  pose proof exp_twice_threshold as Hy.
  set (y := exp (2 * threshold)) in *.
  assert (/ y < / 2.41421356237309505) as Hinv
    by (apply Rinv_lt_contravar; [apply Rmult_lt_0_compat|]; lra).
  lra.
Qed.

Lemma sinh_above_threshold (b : R) : threshold <= b -> 1 < sinh (2 * b).
Proof.
  intros Hb. pose proof sinh_threshold as HT.
  destruct (Req_dec b threshold) as [->|Hne]; [exact HT|].
  apply Rlt_trans with (1 := HT). apply sinh_lt. lra.
Qed.

Lemma pow4_gt_1 (s : R) : 1 < s -> 1 < s ^ 4.
Proof. intros Hs. assert (1 < s * s) by nra. simpl. nra. Qed.

(** At and above the threshold the base of the power lies strictly between
    0 and 1, so the power is the real power. *)
Lemma magnetization_base_pos (b : R) :
  threshold <= b -> 0 < magnetization_base b < 1.
Proof.
  intros Hb. unfold magnetization_base.
  pose proof (pow4_gt_1 _ (sinh_above_threshold b Hb)) as H4.
  assert (0 < / sinh (2 * b) ^ 4) by (apply Rinv_0_lt_compat; lra).
  assert (/ sinh (2 * b) ^ 4 < / 1) by (apply Rinv_lt_contravar; lra).
  unfold Rdiv. rewrite Rinv_1 in *. lra.
Qed.

Lemma magnetization_above (b : R) :
  threshold <= b ->
  magnetization_exact b = Rpower (magnetization_base b) (1 / 8).
Proof.
  intros Hb. unfold magnetization_exact. fold threshold.
  destruct (Rlt_dec b threshold) as [Hlt|_]; [lra|].
  unfold np_power. fold (magnetization_base b).
  destruct (Rle_dec (magnetization_base b) 0) as [Hle|_]; [|reflexivity].
  pose proof (magnetization_base_pos b Hb). lra.
Qed.

Lemma magnetization_below (b : R) :
  b < threshold -> magnetization_exact b = 0.
Proof.
  intros Hb. unfold magnetization_exact. fold threshold.
  destruct (Rlt_dec b threshold); [reflexivity | lra].
Qed.

Lemma magnetization_base_incr (b1 b2 : R) :
  threshold <= b1 -> b1 < b2 -> magnetization_base b1 < magnetization_base b2.
Proof.
  intros H1 H12. unfold magnetization_base.
  pose proof (sinh_above_threshold b1 H1) as Hs1.
  assert (sinh (2 * b1) < sinh (2 * b2)) as Hs by (apply sinh_lt; lra).
  assert (sinh (2 * b1) ^ 4 < sinh (2 * b2) ^ 4) as H4.
  { assert (sinh (2 * b1) * sinh (2 * b1) < sinh (2 * b2) * sinh (2 * b2))
      by nra.
    simpl. nra. }
  pose proof (pow4_gt_1 _ Hs1).
  assert (/ sinh (2 * b2) ^ 4 < / sinh (2 * b1) ^ 4)
    by (apply Rinv_lt_contravar; [apply Rmult_lt_0_compat|]; lra).
  lra.
Qed.

Lemma Rpower_eighth_bounds (y : R) : 0 < y < 1 -> y <= Rpower y (1 / 8) < 1.
Proof.
  intros [H0 H1]. unfold Rpower.
  assert (ln y < 0) as Hln by (rewrite <- ln_1; apply ln_increasing; lra).
  split.
  - rewrite <- (exp_ln y H0) at 1. apply Rlt_le, exp_increasing. lra.
  - apply Rlt_le_trans with (exp 0); [|rewrite exp_0; lra].
    apply exp_increasing. lra.
Qed.

Lemma magnetization_incr (b1 b2 : R) :
  threshold <= b1 -> b1 < b2 ->
  magnetization_exact b1 < magnetization_exact b2.
Proof.
  intros H1 H12. rewrite !magnetization_above by lra.
  apply Rlt_Rpower_l; [lra|]. split.
  - apply magnetization_base_pos, H1.
  - apply magnetization_base_incr; assumption.
Qed.

Lemma exp_neg_le (x : R) : 0 <= x -> exp (- x) <= / (1 + x).
Proof.
  intros Hx. rewrite exp_Ropp. apply Rinv_le_contravar; [lra|].
  destruct (Req_dec x 0) as [->|Hne].
  - rewrite exp_0. lra.
  - apply Rlt_le, exp_ineq1, Hne.
Qed.

Lemma sinh_ge_half (x : R) : 0 <= x -> x / 2 <= sinh x.
Proof.
  intros Hx. unfold sinh.
  pose proof (exp_neg_le x Hx) as Hneg.
  assert (1 + x <= exp x) as Hpos.
  { destruct (Req_dec x 0) as [->|Hne]; [rewrite exp_0; lra|].
    apply Rlt_le, exp_ineq1, Hne. }
  assert (/ (1 + x) <= 1) as Hinv.
  { rewrite <- Rinv_1 at 2. apply Rinv_le_contravar; lra. }
  lra.
Qed.

Lemma magnetization_limit (eps : R) :
  0 < eps ->
  exists B, forall b, B <= b -> 1 - eps < magnetization_exact b < 1.
Proof.
  intros Heps. exists (Rmax threshold (2 / eps)). intros b Hb.
  assert (threshold <= b) as HT
    by (eapply Rle_trans; [apply Rmax_l | exact Hb]).
  assert (2 / eps <= b) as HB
    by (eapply Rle_trans; [apply Rmax_r | exact Hb]).
  rewrite magnetization_above by exact HT.
  pose proof (magnetization_base_pos b HT) as Hbase.
  pose proof (Rpower_eighth_bounds _ Hbase) as [Hlow Hup].
  split; [|exact Hup].
  apply Rlt_le_trans with (2 := Hlow). unfold magnetization_base.
  pose proof (sinh_above_threshold b HT) as Hs.
  assert (0 < 2 / eps) as H2e by (apply Rdiv_lt_0_compat; lra).
  assert (b <= sinh (2 * b)) as Hsb.
  { pose proof (sinh_ge_half (2 * b)). lra. }
  assert (sinh (2 * b) <= sinh (2 * b) ^ 4) as H4.
  { assert (1 < sinh (2 * b) * sinh (2 * b)) by nra. simpl. nra. }
  assert (/ sinh (2 * b) ^ 4 <= / (2 / eps)) as Hinv
    by (apply Rinv_le_contravar; lra).
  assert (/ (2 / eps) = eps / 2) as Heq by (field; lra).
  lra.
Qed.

(** The closed form is continuous wherever its base is positive. *)
Lemma closed_form_continuous (b : R) :
  threshold <= b ->
  continuity_pt (fun b => Rpower (magnetization_base b) (1 / 8)) b.
Proof.
  intros Hb. pose proof (magnetization_base_pos b Hb) as [Hpos _].
  pose proof (sinh_above_threshold b Hb) as Hs.
  unfold magnetization_base in *. unfold Rpower.
  apply derivable_continuous_pt. reg.
  - apply pow_nonzero. lra.
  - exists (/ (1 - 1 / sinh (2 * b) ^ 4)). apply derivable_pt_lim_ln, Hpos.
Qed.

Lemma magnetization_threshold_pos : 0 < magnetization_exact threshold.
Proof.
  rewrite magnetization_above by lra. unfold Rpower. apply exp_pos.
Qed.

Lemma magnetization_not_continuous :
  ~ continuity_pt magnetization_exact threshold.
Proof.
  intros Hc. pose proof magnetization_threshold_pos as Hpos.
  destruct (Hc (magnetization_exact threshold) Hpos) as (alp & Halp & Hx).
  specialize (Hx (threshold - alp / 2)).
  unfold dist in Hx. simpl in Hx. unfold Rdist in Hx.
  rewrite (magnetization_below (threshold - alp / 2)) in Hx by lra.
  assert (Rabs (0 - magnetization_exact threshold)
          < magnetization_exact threshold) as Habs.
  { apply Hx. split.
    - split; [exact I | lra].
    - replace (threshold - alp / 2 - threshold) with (- (alp / 2)) by lra.
      rewrite Rabs_Ropp, Rabs_pos_eq; lra. }
  rewrite Rminus_0_l, Rabs_Ropp, Rabs_pos_eq in Habs; lra.
Qed.

Lemma magnetization_continuous_above (b : R) :
  threshold < b -> continuity_pt magnetization_exact b.
Proof.
  intros Hb.
  apply (continuity_pt_locally_ext
           (fun b => Rpower (magnetization_base b) (1 / 8))
           magnetization_exact (b - threshold) b).
  - lra.
  - intros y Hy. symmetry. apply magnetization_above.
    unfold Rdist in Hy. apply Rabs_def2 in Hy. lra.
  - apply closed_form_continuous. lra.
Qed.

Lemma magnetization_right_continuous (eps : R) :
  0 < eps ->
  exists alp, 0 < alp
    /\ forall b, threshold <= b < threshold + alp ->
         Rabs (magnetization_exact b - magnetization_exact threshold) < eps.
Proof.
  intros Heps.
  destruct (closed_form_continuous threshold (Rle_refl _) eps Heps)
    as (alp & Halp & Hx).
  exists alp. split; [exact Halp|]. intros b [Hb1 Hb2].
  destruct (Req_dec b threshold) as [->|Hne].
  - rewrite Rminus_diag, Rabs_R0. exact Heps.
  - rewrite !magnetization_above by lra.
    specialize (Hx b). unfold dist in Hx. simpl in Hx. unfold Rdist in Hx.
    apply Hx. split.
    + split; [exact I | congruence].
    + rewrite Rabs_pos_eq; lra.
Qed.

(** C4, counterexample: the value at the threshold literal is positive
    while the values below it are zero, so [magnetization_exact] is not
    continuous at the threshold.  The literal lies above the critical point
    [ln(1 + sqrt 2) / 2], where [sinh(2 beta)] is already larger than 1. *)
Lemma magnetization_jumps_at_threshold :
  0 < magnetization_exact threshold
  /\ (forall b, b < threshold -> magnetization_exact b = 0)
  /\ ~ continuity_pt magnetization_exact threshold.
Proof.
  split; [exact magnetization_threshold_pos|].
  split; [exact magnetization_below | exact magnetization_not_continuous].
Qed.

Lemma magnetization_nonneg (b : R) : 0 <= magnetization_exact b.
Proof.
  destruct (Rlt_dec b threshold) as [Hlt|Hge].
  - rewrite (magnetization_below b Hlt). lra.
  - rewrite magnetization_above by lra. unfold Rpower. apply Rlt_le, exp_pos.
Qed.

(** Smaller arguments never give larger results, on the whole line. *)
Lemma magnetization_monotone (b1 b2 : R) :
  b1 <= b2 -> magnetization_exact b1 <= magnetization_exact b2.
Proof.
  intros H12. destruct (Rlt_dec b1 threshold) as [Hlt|Hge].
  - rewrite (magnetization_below b1 Hlt). apply magnetization_nonneg.
  - destruct (Req_dec b1 b2) as [->|Hne]; [lra|].
    apply Rlt_le, magnetization_incr; lra.
Qed.

(** C4, amended: below [0.440686793509772] the result is 0; at and above
    it the result is [(1 - sinh(2 beta)^-4)^(1/8)], a real power of a
    positive base.  The result is monotonically increasing and tends to 1,
    which bounds it.  It is continuous above the threshold and continuous
    from the right at the threshold, where it jumps from 0 to a positive
    value. *)
Theorem magnetization_piecewise :
  (forall b, b < threshold -> magnetization_exact b = 0)
  /\ (forall b, threshold <= b ->
        0 < 1 - 1 / sinh (2 * b) ^ 4 <= 1
        /\ magnetization_exact b
           = Rpower (1 - 1 / sinh (2 * b) ^ 4) (1 / 8))
  /\ (forall b1 b2, b1 <= b2 ->
        magnetization_exact b1 <= magnetization_exact b2)
  /\ (forall eps, 0 < eps ->
        exists B, forall b, B <= b -> 1 - eps < magnetization_exact b <= 1)
  /\ (forall b, threshold < b -> continuity_pt magnetization_exact b)
  /\ (forall eps, 0 < eps ->
        exists alp, 0 < alp
          /\ forall b, threshold <= b < threshold + alp ->
               Rabs (magnetization_exact b - magnetization_exact threshold)
               < eps)
  /\ 0 < magnetization_exact threshold.
Proof.
  split; [exact magnetization_below|].
  split.
  { intros b Hb. split; [|exact (magnetization_above b Hb)].
    pose proof (magnetization_base_pos b Hb) as Hbase.
    unfold magnetization_base in Hbase. lra. }
  split; [exact magnetization_monotone|].
  split.
  { intros eps Heps. destruct (magnetization_limit eps Heps) as [B HB].
    exists B. intros b Hb. specialize (HB b Hb). lra. }
  split; [exact magnetization_continuous_above|].
  split; [exact magnetization_right_continuous|].
  exact magnetization_threshold_pos.
Qed.

(** The piecewise form at [beta = 0.25] and the monotonicity between
    [beta = 1] and [beta = 2]. *)
Lemma magnetization_piecewise_witness :
  magnetization_exact 0.25 = 0
  /\ magnetization_exact 1 <= magnetization_exact 2.
Proof.
  destruct magnetization_piecewise as (Hbelow & _ & Hincr & _).
  split.
  - apply Hbelow. unfold threshold. lra.
  - apply Hincr. lra.
Defined.

(** *** The elliptic integrals and the internal energy *)


(** [cosh] against [sinh]. *)
Lemma cosh_sinh_exp (x : R) :
  cosh x = sinh x + exp (- x) /\ 0 < exp (- x) /\ 0 < cosh x
  /\ cosh x ^ 2 = 1 + sinh x ^ 2.
Proof.
  unfold cosh, sinh. pose proof (exp_pos x) as Hp. pose proof (exp_pos (- x)) as Hn.
  assert (exp x * exp (- x) = 1) as H1
    by (rewrite <- exp_plus, Rplus_opp_r; apply exp_0).
  repeat split; try lra; simpl; nra.
Qed.

(** The argument handed to the elliptic integrals lies in [[0, 1]]. *)
Lemma spec_modulus_range (b : R) : 0 <= spec_modulus b <= 1.
Proof.
  unfold spec_modulus.
  destruct (cosh_sinh_exp (2 * b)) as (_ & _ & Hc & Hcs).
  set (s := sinh (2 * b)) in *. set (c := cosh (2 * b)) in *.
  assert (c ^ 4 = (1 + s ^ 2) ^ 2) as H4 by (rewrite <- Hcs; ring).
  assert (0 < c ^ 4) as Hc4 by (apply pow_lt, Hc).
  assert (0 <= s ^ 2) as Hs2 by (apply pow2_ge_0).
  split.
  - apply Rmult_le_pos; [lra | apply Rlt_le, Rinv_0_lt_compat, Hc4].
  - apply Rmult_le_reg_r with (c ^ 4); [exact Hc4|].
    unfold Rdiv. rewrite Rmult_assoc, Rinv_l by lra. rewrite H4.
    pose proof (pow2_ge_0 (s ^ 2 - 1)) as Hsq.
    generalize dependent (s ^ 2). intros u _ _ _ Hsq. simpl in *. nra.
Qed.




(** At 1 and above it has no value. *)
Lemma ellipk_singular (m : R) : 1 <= m -> ellipk m = None.
Proof.
  intros Hm. unfold ellipk.
  destruct (Rlt_dec m 1); [exfalso; lra | reflexivity].
Qed.


Lemma ellipe_singular (m : R) : 1 < m -> ellipe m = None.
Proof.
  intros Hm. unfold ellipe.
  destruct (Rle_dec m 1); [exfalso; lra | reflexivity].
Qed.



(** At [beta = 0] the code divides zero by zero. *)
Lemma specific_heat_exact_at_0 : specific_heat_exact 0 = None.
Proof.
  unfold specific_heat_exact. cbv zeta. rewrite Rmult_0_r.
  destruct (ellipk (4 * sinh 0 ^ 2 / cosh 0 ^ 4)) as [K|]; [|reflexivity].
  cbn [mbind option_bind].
  destruct (ellipe (4 * sinh 0 ^ 2 / cosh 0 ^ 4)) as [E|]; [|reflexivity].
  cbn [mbind option_bind]. unfold checked_div.
  destruct (Req_dec_T (tanh 0 ^ 2) 0) as [_|Hne]; [reflexivity|].
  exfalso. apply Hne. unfold tanh. rewrite sinh_0. simpl. lra.
Qed.

(** At [J = 0] the code divides zero by zero. *)
Lemma ene_exact_at_0 : ene_exact 0 = None.
Proof.
  unfold ene_exact. cbv zeta. rewrite Rmult_0_r, sinh_0.
  destruct (ellipk (4 * 0 ^ 2 / cosh 0 ^ 4)) as [K|]; [|reflexivity].
  cbn [mbind option_bind]. unfold checked_div.
  destruct (Req_dec_T 0 0); [reflexivity | contradiction].
Qed.

(** *** The bounded domain *)







(** *** The specific heat *)



(** *** The internal energy at [J = 1] *)








End ExactFacts.
